(** * treeItemBehavior: the accessibility behaviour of a tree item

    A shallow embedding of
    [packages/fluentui/accessibility/src/behaviors/Tree/treeItemBehavior.ts]
    and the properties of the descriptor it returns.

    JavaScript objects are finite maps from property names to values
    ([gmap string _]); an object literal is evaluated member by member, in
    source order, so that a later member overwrites an earlier one with the
    same name.  JavaScript numbers are IEEE 754 doubles ([float]); the
    function only copies them. *)

From Stdlib Require Import String List.
From Stdlib Require Import Floats.PrimFloat.
From stdpp Require Import base option strings gmap.
Import ListNotations.

Local Open Scope string_scope.

(** ** The fragment of JavaScript the function is written in *)

Definition number : Set := float.

(** Attribute values: [string | boolean | number | undefined]. *)
Inductive value : Set :=
| VUndefined
| VBoolean (b : bool)
| VNumber (n : number)
| VString (s : string).

(** Reading an optional property: an absent one reads as [undefined]. *)
Definition ofBoolean (o : option bool) : value :=
  match o with
  | Some b => VBoolean b
  | None => VUndefined
  end.

Definition ofNumber (o : option number) : value :=
  match o with
  | Some n => VNumber n
  | None => VUndefined
  end.

(** Truthiness of an optional boolean: [undefined] and [false] are falsy. *)
Definition toBoolean (o : option bool) : bool :=
  match o with
  | Some true => true
  | Some false | None => false
  end.

(** [a && b] on optional booleans: [a] itself when it is falsy, else [b]. *)
Definition js_and (a b : option bool) : option bool :=
  if toBoolean a then b else a.

(** [a || false]: [a] when it is truthy, else the literal. *)
Definition js_or (a : option bool) (b : bool) : bool :=
  if toBoolean a then true else b.

(** [a !== s] for an optional string [a] and a string literal. *)
Definition strict_ne (a : option string) (s : string) : bool :=
  match a with
  | Some a' => negb (String.eqb a' s)
  | None => true
  end.

(** The operand of an object spread [...(c && { ... })]: the object when the
    condition is truthy, else the falsy condition itself, which spreads to
    nothing. *)
Inductive operand (A : Type) : Type :=
| NotAnObject
| AnObject (o : gmap string A).
Arguments NotAnObject {A}.
Arguments AnObject {A} o.

Definition and_object {A} (c : option bool) (o : gmap string A) : operand A :=
  if toBoolean c then AnObject o else NotAnObject.

(** The members of an object literal. *)
Inductive member (A : Type) : Type :=
| Field (key : string) (v : A)
| Spread (x : operand A).
Arguments Field {A} key v.
Arguments Spread {A} x.

(** One member is added to the object built so far; own properties of a
    spread object overwrite the ones already there. *)
Definition define {A} (o : gmap string A) (m : member A) : gmap string A :=
  match m with
  | Field k v => <[k := v]> o
  | Spread NotAnObject => o
  | Spread (AnObject src) => src ∪ o
  end.

Definition object {A} (ms : list (member A)) : gmap string A :=
  fold_left define ms ∅.

(** A call either returns or throws. *)
Inductive completion (A : Type) : Type :=
| Normal (a : A)
| Throw (error : string).
Arguments Normal {A} a.
Arguments Throw {A} error.

(** ** Props *)

Record TreeItemBehaviorProps : Set := {
  expanded : option bool;
  level : option number;
  index : option number;
  hasSubtree : option bool;
  treeSize : option number;
  selectable : option bool;
  selected : option bool;
}.

(** Checks if current tree item has a subtree and it is expanded. *)
Definition isSubtreeExpanded (props : TreeItemBehaviorProps) : bool :=
  toBoolean (js_and (hasSubtree props) (expanded props)).

(** ** Key actions *)

Record KeyCombination : Set := { keyCode : number }.

Record KeyActionHandler : Set := { keyCombinations : list KeyCombination }.

(** ** Reading and comparing

    The handler of an action triggered by exactly the given keys, in order. *)
Definition onKeys (codes : list number) : KeyActionHandler :=
  {| keyCombinations := map Build_KeyCombination codes |}.

(** A key is one of those that trigger the action. *)
Definition triggeredBy (h : KeyActionHandler) (code : number) : Prop :=
  {| keyCode := code |} ∈ keyCombinations h.

(** Deep equality of two props objects: property by property. *)
Definition deepEqual (p q : TreeItemBehaviorProps) : Prop :=
  expanded p = expanded q ∧ level p = level q ∧ index p = index q ∧
  hasSubtree p = hasSubtree q ∧ treeSize p = treeSize q ∧
  selectable p = selectable q ∧ selected p = selected q.

(** Props with no property set. *)
Definition noProps : TreeItemBehaviorProps :=
  {| expanded := None; level := None; index := None; hasSubtree := None;
     treeSize := None; selectable := None; selected := None |}.

(** The props with every absent flag that is only tested for truthiness
    written out as [false]. *)
Definition withDefaults (p : TreeItemBehaviorProps) : TreeItemBehaviorProps :=
  {| expanded := expanded p; level := level p; index := index p;
     hasSubtree := Some (toBoolean (hasSubtree p));
     treeSize := treeSize p;
     selectable := Some (toBoolean (selectable p));
     selected := Some (toBoolean (selected p)) |}.

(** The attribute names that the root of an item with a subtree is given by
    name. *)
Definition subtreeAttributeNames : list string :=
  [ "aria-expanded"; "aria-selected"; "tabIndex"; "role"; "aria-setsize";
    "aria-posinset"; "aria-level" ].

(** ** A concrete environment

    The key codes are the DOM [keyCode] values of the keys, and the title
    behaviour is a stand-in that returns its props. *)
Module Sample.

Definition keyboardKey (name : string) : number :=
  if String.eqb name "Enter" then 13%float
  else if String.eqb name "ArrowLeft" then 37%float
  else if String.eqb name "ArrowRight" then 39%float
  else if String.eqb name "*" then 56%float
  else 0%float.

Definition SpacebarKey : number := 32%float.

Definition IS_FOCUSABLE_ATTRIBUTE : string := "data-is-focusable".

Definition treeTitleBehavior (props : TreeItemBehaviorProps)
    : TreeItemBehaviorProps := props.

(** A leaf that can be selected. *)
Definition selectableLeaf : TreeItemBehaviorProps :=
  {| expanded := None; level := Some 2%float; index := Some 1%float;
     hasSubtree := Some false; treeSize := Some 3%float;
     selectable := Some true; selected := None |}.

(** A leaf that cannot. *)
Definition plainLeaf : TreeItemBehaviorProps :=
  {| expanded := None; level := Some 2%float; index := Some 1%float;
     hasSubtree := Some false; treeSize := Some 3%float;
     selectable := None; selected := None |}.

(** An item with a subtree, open or closed, selectable or not. *)
Definition subtree (open sel : bool) : TreeItemBehaviorProps :=
  {| expanded := Some open; level := Some 1%float; index := Some 2%float;
     hasSubtree := Some true; treeSize := Some 3%float;
     selectable := Some sel; selected := None |}.

End Sample.

(** ** The behaviour *)

Section TreeItemBehavior.

(** [@fluentui/keyboard-key]: the code of a named key, and the space bar. *)
Variable keyboardKey : string -> number.
Variable SpacebarKey : number.

(** [../../attributes]: the name of the attribute that marks an element
    as focusable. *)
Variable IS_FOCUSABLE_ATTRIBUTE : string.

(** [./treeTitleBehavior]: the behaviour of the title slot. *)
Variables TreeTitleBehaviorProps TreeTitleDefinition : Type.
Variable treeTitleBehavior : TreeTitleBehaviorProps -> TreeTitleDefinition.

(** [process.env.NODE_ENV]. *)
Variable NODE_ENV : option string.

Record AccessibilityDefinition : Type := {
  attributes : gmap string (gmap string value);
  keyActions : gmap string (gmap string KeyActionHandler);
  childBehaviors : gmap string (TreeTitleBehaviorProps -> TreeTitleDefinition);
}.

Definition definition (props : TreeItemBehaviorProps) : AccessibilityDefinition :=
  {| attributes := object [
       Field "root" (object [
         Field "role" (VString "none");
         Spread (and_object (hasSubtree props) (object [
           Field "aria-expanded" (ofBoolean (expanded props));
           Field "aria-selected"
             (if toBoolean (selectable props)
              then VBoolean (js_or (selected props) false)
              else VUndefined);
           Field "tabIndex" (VNumber (-1)%float);
           Field IS_FOCUSABLE_ATTRIBUTE (VBoolean true);
           Field "role" (VString "treeitem");
           Field "aria-setsize" (ofNumber (treeSize props));
           Field "aria-posinset" (ofNumber (index props));
           Field "aria-level" (ofNumber (level props))
         ]))
       ])
     ];
     keyActions := object [
       Field "root" (object [
         Field "performClick"
           {| keyCombinations := [ {| keyCode := keyboardKey "Enter" |};
                                   {| keyCode := SpacebarKey |} ] |};
         Spread (and_object (Some (isSubtreeExpanded props)) (object [
           Field "collapse"
             {| keyCombinations := [ {| keyCode := keyboardKey "ArrowLeft" |} ] |};
           Field "focusFirstChild"
             {| keyCombinations := [ {| keyCode := keyboardKey "ArrowRight" |} ] |};
           Field "focusParent"
             {| keyCombinations := [ {| keyCode := keyboardKey "ArrowLeft" |} ] |}
         ]));
         Spread (and_object
                   (js_and (Some (negb (isSubtreeExpanded props))) (hasSubtree props))
                   (object [
           Field "expand"
             {| keyCombinations := [ {| keyCode := keyboardKey "ArrowRight" |} ] |};
           Field "focusParent"
             {| keyCombinations := [ {| keyCode := keyboardKey "ArrowLeft" |} ] |}
         ]));
         Field "expandSiblings"
           {| keyCombinations := [ {| keyCode := keyboardKey "*" |} ] |};
         Spread (and_object (selectable props) (object [
           Field "performClick"
             {| keyCombinations :=
                  if toBoolean (hasSubtree props)
                  then [ {| keyCode := keyboardKey "Enter" |} ]
                  else [ {| keyCode := SpacebarKey |} ] |};
           Field "performSelection"
             {| keyCombinations := [ {| keyCode := SpacebarKey |} ] |}
         ]))
       ])
     ];
     childBehaviors := object [
       Field "title" treeTitleBehavior
     ] |}.

(** [d.attributes.root[name] = v]: a [TypeError] when [d.attributes] has no
    [root]. *)
Definition set_root_attribute (name : string) (v : value)
    (d : AccessibilityDefinition) : completion AccessibilityDefinition :=
  match attributes d !! "root" with
  | Some root =>
      Normal {| attributes := <["root" := <[name := v]> root]> (attributes d);
                keyActions := keyActions d;
                childBehaviors := childBehaviors d |}
  | None => Throw "TypeError"
  end.

Definition treeItemBehavior (props : TreeItemBehaviorProps)
    : completion AccessibilityDefinition :=
  let definition := definition props in
  if strict_ne NODE_ENV "production" && negb (toBoolean (hasSubtree props))
  then
    (* Override the default trigger's accessibility schema class. *)
    set_root_attribute "data-aa-class" (VString "SingleTreeItem") definition
  else Normal definition.

(** ** Reading a descriptor *)

(** [d.attributes[slot][name]]; [Some VUndefined] is a property that is
    there and holds [undefined], [None] a property that is not there. *)
Definition attribute (d : AccessibilityDefinition) (slot name : string)
    : option value :=
  attributes d !! slot ≫= λ o, o !! name.

(** [d.keyActions[slot][action]]. *)
Definition keyAction (d : AccessibilityDefinition) (slot action : string)
    : option KeyActionHandler :=
  keyActions d !! slot ≫= λ o, o !! action.


(** ** Object literals: the last write wins *)

Lemma object_snoc {A} (ms : list (member A)) (m : member A) :
  object (ms ++ [m]) = define (object ms) m.
Proof. unfold object. rewrite fold_left_app. reflexivity. Qed.

Lemma lookup_define_field {A} (o : gmap string A) (k j : string) (v : A) :
  define o (Field k v) !! j = if decide (k = j) then Some v else o !! j.
Proof. cbn [define]. apply lookup_insert. Qed.

Lemma lookup_define_spread {A} (o src : gmap string A) (j : string) :
  define o (Spread (AnObject src)) !! j =
  match src !! j with
  | Some v => Some v
  | None => o !! j
  end.
Proof.
  cbn [define]. rewrite lookup_union.
  destruct (src !! j), (o !! j); reflexivity.
Qed.

Lemma define_not_an_object {A} (o : gmap string A) :
  define o (Spread NotAnObject) = o.
Proof. reflexivity. Qed.

(** ** Evaluating the literal *)

Ltac literal :=
  unfold treeItemBehavior, definition, set_root_attribute, attribute,
    keyAction, isSubtreeExpanded, js_and, js_or, and_object, object;
  cbn [hasSubtree expanded selectable selected level index treeSize
       toBoolean negb andb fold_left define attributes keyActions
       childBehaviors].

Ltac lookups :=
  repeat first
    [ rewrite lookup_insert_eq
    | rewrite lookup_insert_ne by done
    | rewrite lookup_empty
    | rewrite lookup_union ];
  cbn [mbind option_bind union_with option_union_with].

(** The literal always has a root slot, for attributes and for keys. *)
Lemma definition_root_attributes props :
  is_Some (attributes (definition props) !! "root").
Proof. literal. rewrite lookup_insert_eq. eauto. Qed.

Lemma definition_root_keyActions props :
  is_Some (keyActions (definition props) !! "root").
Proof. literal. rewrite lookup_insert_eq. eauto. Qed.

(** Writing an attribute of the root leaves the key actions and the child
    behaviours as they are, and the other attributes of the root too. *)
Lemma set_root_attribute_spec name v d root :
  attributes d !! "root" = Some root ->
  exists d',
    set_root_attribute name v d = Normal d' /\
    attributes d' !! "root" = Some (<[name := v]> root) /\
    keyActions d' = keyActions d /\
    childBehaviors d' = childBehaviors d.
Proof.
  intros Hroot. unfold set_root_attribute. rewrite Hroot.
  eexists. split; [reflexivity|]. cbn [attributes keyActions childBehaviors].
  rewrite lookup_insert_eq. auto.
Qed.

(** The call returns, and only the root attributes can differ from the
    literal's. *)
Lemma treeItemBehavior_returns props :
  exists d,
    treeItemBehavior props = Normal d /\
    keyActions d = keyActions (definition props) /\
    childBehaviors d = childBehaviors (definition props).
Proof.
  unfold treeItemBehavior.
  destruct (strict_ne NODE_ENV "production" && negb (toBoolean (hasSubtree props))).
  - destruct (definition_root_attributes props) as [root Hroot].
    destruct (set_root_attribute_spec "data-aa-class" (VString "SingleTreeItem") _ _ Hroot)
      as (d & Hd & _ & Hk & Hc).
    exists d. auto.
  - eexists. split; [reflexivity|]. auto.
Qed.

(** An item with a subtree gets the literal as it is. *)
Lemma treeItemBehavior_subtree props :
  toBoolean (hasSubtree props) = true ->
  treeItemBehavior props = Normal (definition props).
Proof.
  intros H. unfold treeItemBehavior. rewrite H.
  cbn [negb]. rewrite andb_false_r. reflexivity.
Qed.

(** The root attributes of an item without a subtree. *)
Lemma treeItemBehavior_leaf props :
  toBoolean (hasSubtree props) = false ->
  exists d,
    treeItemBehavior props = Normal d /\
    attributes d !! "root" =
      Some (if strict_ne NODE_ENV "production"
            then {[ "role" := VString "none";
                    "data-aa-class" := VString "SingleTreeItem" ]}
            else {[ "role" := VString "none" ]}) /\
    keyActions d = keyActions (definition props).
Proof.
  intros H.
  assert (Hroot : attributes (definition props) !! "root"
                  = Some {[ "role" := VString "none" ]}).
  { literal. rewrite H. cbn [define fold_left].
    rewrite lookup_insert_eq, insert_empty. reflexivity. }
  unfold treeItemBehavior. rewrite H. cbn [negb]. rewrite andb_true_r.
  destruct (strict_ne NODE_ENV "production").
  - destruct (set_root_attribute_spec "data-aa-class" (VString "SingleTreeItem") _ _ Hroot)
      as (d & Hd & Ha & Hk & _).
    exists d. split; [exact Hd | split; [| exact Hk]].
    rewrite Ha. reflexivity.
  - eexists. split; [reflexivity | split; [exact Hroot | reflexivity]].
Qed.

(** The key actions of the root, read off the literal. *)
Lemma keyAction_returned props d action :
  treeItemBehavior props = Normal d ->
  keyAction d "root" action = keyAction (definition props) "root" action.
Proof.
  intros Hd. destruct (treeItemBehavior_returns props) as (d' & Hd' & Hk & _).
  rewrite Hd in Hd'. injection Hd' as <-. unfold keyAction. rewrite Hk. reflexivity.
Qed.

Ltac root_lookup :=
  literal; rewrite lookup_insert_eq; cbn [mbind option_bind]; lookups;
  try reflexivity.

(** A handler for one key is triggered by no other key. *)
Lemma not_triggeredBy_other (a b : number) :
  a <> b -> ~ triggeredBy (onKeys [a]) b.
Proof.
  unfold triggeredBy, onKeys. cbn [keyCombinations map].
  intros Hne Hin. apply list_elem_of_singleton in Hin.
  injection Hin as ->. contradiction.
Qed.

(** ** Items without a subtree *)

(** C1 (amended): for every props with [hasSubtree = false], the call
    returns a descriptor whose root attributes are exactly
    [{ role: "none" }], with the diagnostic attribute [data-aa-class] added
    unless [NODE_ENV] is ["production"], and whose root key actions have
    [performClick] on Enter and Spacebar, or on Spacebar alone when
    [selectable] is [true], [expandSiblings] on ['*'], and no [expand],
    [collapse], [focusParent] or [focusFirstChild]. *)
Theorem leaf_descriptor props :
  hasSubtree props = Some false ->
  exists d,
    treeItemBehavior props = Normal d /\
    attributes d !! "root" =
      Some (if strict_ne NODE_ENV "production"
            then {[ "role" := VString "none";
                    "data-aa-class" := VString "SingleTreeItem" ]}
            else {[ "role" := VString "none" ]}) /\
    keyAction d "root" "performClick" =
      Some (onKeys (match selectable props with
                    | Some true => [SpacebarKey]
                    | Some false | None => [keyboardKey "Enter"; SpacebarKey]
                    end)) /\
    keyAction d "root" "expandSiblings" = Some (onKeys [keyboardKey "*"]) /\
    keyAction d "root" "expand" = None /\
    keyAction d "root" "collapse" = None /\
    keyAction d "root" "focusParent" = None /\
    keyAction d "root" "focusFirstChild" = None.
Proof.
  intros Hsub.
  destruct (treeItemBehavior_leaf props) as (d & Hd & Ha & _);
    [rewrite Hsub; reflexivity|].
  exists d. split; [exact Hd|]. split; [exact Ha|].
  rewrite !(keyAction_returned props d) by exact Hd.
  destruct props as [e l i h t s sd]; cbn [hasSubtree selectable] in *; subst h.
  destruct s as [[]|]; repeat split; root_lookup.
Qed.

(** C2: for every props with [selectable = true] and [hasSubtree = false],
    [performClick] is bound to Spacebar only, so not to Enter, and
    [performSelection] is bound to Spacebar. *)
Theorem selectable_leaf_keys props :
  selectable props = Some true ->
  hasSubtree props = Some false ->
  keyboardKey "Enter" <> SpacebarKey ->
  exists d,
    treeItemBehavior props = Normal d /\
    keyAction d "root" "performClick" = Some (onKeys [SpacebarKey]) /\
    (forall h, keyAction d "root" "performClick" = Some h ->
               ~ triggeredBy h (keyboardKey "Enter")) /\
    keyAction d "root" "performSelection" = Some (onKeys [SpacebarKey]).
Proof.
  intros Hsel Hsub Hkeys.
  destruct (treeItemBehavior_returns props) as (d & Hd & _).
  exists d. split; [exact Hd|].
  rewrite !(keyAction_returned props d) by exact Hd.
  destruct props as [e l i h t s sd]; cbn [hasSubtree selectable] in *; subst h s.
  assert (Hclick : keyAction (definition (Build_TreeItemBehaviorProps
                     e l i (Some false) t (Some true) sd)) "root" "performClick"
                   = Some (onKeys [SpacebarKey])) by root_lookup.
  split; [exact Hclick|]. split.
  - intros h Hh. rewrite Hclick in Hh. injection Hh as <-.
    apply not_triggeredBy_other. congruence.
  - root_lookup.
Qed.

(** ** Items with a subtree *)

(** C3: for every props with [selectable = true] and [hasSubtree = true],
    [performClick] is bound to Enter only, so not to Spacebar,
    [performSelection] is bound to Spacebar, and [aria-selected] is
    [props.selected], or [false] when [selected] is absent. *)
Theorem selectable_subtree props :
  selectable props = Some true ->
  hasSubtree props = Some true ->
  keyboardKey "Enter" <> SpacebarKey ->
  IS_FOCUSABLE_ATTRIBUTE <> "aria-selected" ->
  exists d,
    treeItemBehavior props = Normal d /\
    keyAction d "root" "performClick" = Some (onKeys [keyboardKey "Enter"]) /\
    (forall h, keyAction d "root" "performClick" = Some h ->
               ~ triggeredBy h SpacebarKey) /\
    keyAction d "root" "performSelection" = Some (onKeys [SpacebarKey]) /\
    attribute d "root" "aria-selected" =
      Some (VBoolean (default false (selected props))).
Proof.
  intros Hsel Hsub Hkeys Hmarker.
  exists (definition props).
  split; [apply treeItemBehavior_subtree; rewrite Hsub; reflexivity|].
  destruct props as [e l i h t s sd]; cbn [hasSubtree selectable selected] in *;
    subst h s.
  assert (Hclick : keyAction (definition (Build_TreeItemBehaviorProps
                     e l i (Some true) t (Some true) sd)) "root" "performClick"
                   = Some (onKeys [keyboardKey "Enter"])).
  { destruct e as [[]|]; root_lookup. }
  split; [exact Hclick|]. split; [|split].
  - intros h Hh. rewrite Hclick in Hh. injection Hh as <-.
    apply not_triggeredBy_other. exact Hkeys.
  - destruct e as [[]|]; root_lookup.
  - destruct sd as [[]|]; root_lookup.
Qed.

(** C4: for every props with [hasSubtree = true], the root attributes have
    [aria-expanded = props.expanded], [aria-selected] equal to
    [props.selected || false] when [selectable] is [true] and to
    [undefined] otherwise, the focusable marker set to [true],
    [role = "treeitem"], [aria-setsize = props.treeSize],
    [aria-posinset = props.index], [aria-level = props.level] and
    [tabIndex = -1]; the marker's name is none of the names written out
    in the literal. *)
Theorem subtree_attributes props :
  hasSubtree props = Some true ->
  IS_FOCUSABLE_ATTRIBUTE ∉ subtreeAttributeNames ->
  exists d,
    treeItemBehavior props = Normal d /\
    attribute d "root" "aria-expanded" = Some (ofBoolean (expanded props)) /\
    attribute d "root" "aria-selected" =
      Some (match selectable props with
            | Some true => VBoolean (default false (selected props))
            | Some false | None => VUndefined
            end) /\
    attribute d "root" IS_FOCUSABLE_ATTRIBUTE = Some (VBoolean true) /\
    attribute d "root" "role" = Some (VString "treeitem") /\
    attribute d "root" "aria-setsize" = Some (ofNumber (treeSize props)) /\
    attribute d "root" "aria-posinset" = Some (ofNumber (index props)) /\
    attribute d "root" "aria-level" = Some (ofNumber (level props)) /\
    attribute d "root" "tabIndex" = Some (VNumber (-1)%float).
Proof.
  intros Hsub Hfresh.
  unfold subtreeAttributeNames in Hfresh. rewrite !not_elem_of_cons in Hfresh.
  destruct Hfresh as (? & ? & ? & ? & ? & ? & ? & _).
  exists (definition props).
  split; [apply treeItemBehavior_subtree; rewrite Hsub; reflexivity|].
  destruct props as [e l i h t s sd]; cbn [hasSubtree selectable selected
    expanded level index treeSize] in *; subst h.
  destruct s as [[]|], sd as [[]|]; repeat split; root_lookup.
Qed.

(** C5: for every props with [hasSubtree = true] and [expanded = true], the
    root has [role = "treeitem"] and [aria-expanded = true], and its key
    actions have [collapse] on ArrowLeft, [focusFirstChild] on ArrowRight
    and [focusParent] on ArrowLeft, and no [expand]. *)
Theorem expanded_subtree props :
  hasSubtree props = Some true ->
  expanded props = Some true ->
  IS_FOCUSABLE_ATTRIBUTE <> "aria-expanded" ->
  exists d,
    treeItemBehavior props = Normal d /\
    attribute d "root" "role" = Some (VString "treeitem") /\
    attribute d "root" "aria-expanded" = Some (VBoolean true) /\
    keyAction d "root" "collapse" = Some (onKeys [keyboardKey "ArrowLeft"]) /\
    keyAction d "root" "focusFirstChild" =
      Some (onKeys [keyboardKey "ArrowRight"]) /\
    keyAction d "root" "focusParent" = Some (onKeys [keyboardKey "ArrowLeft"]) /\
    keyAction d "root" "expand" = None.
Proof.
  intros Hsub Hexp Hmarker.
  exists (definition props).
  split; [apply treeItemBehavior_subtree; rewrite Hsub; reflexivity|].
  destruct props as [e l i h t s sd]; cbn [hasSubtree expanded] in *; subst h e.
  destruct s as [[]|]; repeat split; root_lookup.
Qed.

(** C6: for every props with [hasSubtree = true] and [expanded = false], the
    root key actions have [expand] on ArrowRight and [focusParent] on
    ArrowLeft, and neither [collapse] nor [focusFirstChild]. *)
Theorem collapsed_subtree props :
  hasSubtree props = Some true ->
  expanded props = Some false ->
  exists d,
    treeItemBehavior props = Normal d /\
    keyAction d "root" "expand" = Some (onKeys [keyboardKey "ArrowRight"]) /\
    keyAction d "root" "focusParent" = Some (onKeys [keyboardKey "ArrowLeft"]) /\
    keyAction d "root" "collapse" = None /\
    keyAction d "root" "focusFirstChild" = None.
Proof.
  intros Hsub Hexp.
  exists (definition props).
  split; [apply treeItemBehavior_subtree; rewrite Hsub; reflexivity|].
  destruct props as [e l i h t s sd]; cbn [hasSubtree expanded] in *; subst h e.
  destruct s as [[]|]; repeat split; root_lookup.
Qed.

(** ** Every item *)

(** C7: for every props, the returned descriptor has a [title] child
    behaviour, and it is the title behaviour itself: applied to any props
    it gives what the title behaviour gives. *)
Theorem title_delegated props :
  exists d title,
    treeItemBehavior props = Normal d /\
    childBehaviors d !! "title" = Some title /\
    title = treeTitleBehavior /\
    forall titleProps, title titleProps = treeTitleBehavior titleProps.
Proof.
  destruct (treeItemBehavior_returns props) as (d & Hd & _ & Hc).
  exists d, treeTitleBehavior. split; [exact Hd|].
  rewrite Hc. literal. rewrite lookup_insert_eq. auto.
Qed.

(** C9: the call returns a descriptor for every props, also for the props
    with every property absent, and an absent flag counts as [false]:
    writing [false] for it does not change the result. *)
Theorem treeItemBehavior_total :
  (forall props, exists d, treeItemBehavior props = Normal d) /\
  (exists d, treeItemBehavior noProps = Normal d) /\
  (forall props, treeItemBehavior (withDefaults props) = treeItemBehavior props).
Proof.
  assert (Htotal : forall props, exists d, treeItemBehavior props = Normal d).
  { intros props. destruct (treeItemBehavior_returns props) as (d & Hd & _).
    exists d. exact Hd. }
  split; [exact Htotal|]. split; [apply Htotal|].
  intros [e l i h t s sd]. unfold withDefaults.
  cbn [hasSubtree expanded selectable selected level index treeSize].
  destruct h as [[]|], s as [[]|], sd as [[]|]; reflexivity.
Qed.

(** C10: for every props, the returned descriptor does not have both an
    [expand] and a [collapse] key action on the root. *)
Theorem expand_collapse_exclusive props :
  exists d,
    treeItemBehavior props = Normal d /\
    ~ (is_Some (keyAction d "root" "expand") /\
       is_Some (keyAction d "root" "collapse")).
Proof.
  destruct (treeItemBehavior_returns props) as (d & Hd & _).
  exists d. split; [exact Hd|].
  rewrite !(keyAction_returned props d) by exact Hd.
  destruct props as [e l i h t s sd].
  destruct h as [[]|], e as [[]|], s as [[]|]; root_lookup;
    intros [[? He] [? Hc]]; discriminate.
Qed.

(** ** Further properties of the behaviour *)

(** Apart from the diagnostic attribute, the root attributes are the
    literal's. *)
Lemma attribute_returned props d name :
  treeItemBehavior props = Normal d ->
  name <> "data-aa-class" ->
  attribute d "root" name = attribute (definition props) "root" name.
Proof.
  unfold treeItemBehavior.
  destruct (strict_ne NODE_ENV "production" && negb (toBoolean (hasSubtree props))).
  - destruct (definition_root_attributes props) as [root Hroot].
    unfold set_root_attribute. rewrite Hroot. intros [= <-] Hname.
    unfold attribute. cbn [attributes].
    rewrite lookup_insert_eq, Hroot. cbn [mbind option_bind].
    apply lookup_insert_ne. congruence.
  - intros [= <-] _. reflexivity.
Qed.


(** X1: [isSubtreeExpanded] holds exactly when [hasSubtree] and [expanded]
    are both [true]; a flag that is absent or [false] makes it fail. *)
Theorem isSubtreeExpanded_iff props :
  isSubtreeExpanded props = true <->
  hasSubtree props = Some true /\ expanded props = Some true.
Proof.
  destruct props as [e l i h t s sd]. unfold isSubtreeExpanded, js_and.
  cbn [hasSubtree expanded].
  destruct h as [[]|], e as [[]|]; cbn [toBoolean];
    split; try discriminate; try (intros [? ?]; discriminate); auto.
Qed.

(** X2: the names of the root key actions are [performClick] and
    [expandSiblings], the arrow actions that fit the state of the subtree,
    and [performSelection] for a selectable item; there is no other. *)
Theorem root_action_names props :
  exists d actions,
    treeItemBehavior props = Normal d /\
    keyActions d !! "root" = Some actions /\
    dom actions =
      {[ "performClick"; "expandSiblings" ]}
      ∪ (if isSubtreeExpanded props
         then {[ "collapse"; "focusFirstChild"; "focusParent" ]}
         else if toBoolean (hasSubtree props)
              then {[ "expand"; "focusParent" ]}
              else ∅)
      ∪ (if toBoolean (selectable props)
         then {[ "performSelection" ]}
         else ∅).
Proof.
  destruct (treeItemBehavior_returns props) as (d & Hd & Hk & _).
  exists d. rewrite Hk.
  destruct props as [e l i h t s sd].
  destruct h as [[]|], e as [[]|], s as [[]|];
    literal; rewrite lookup_insert_eq;
    (eexists; split; [exact Hd|]; split; [reflexivity|]);
    repeat first [ rewrite dom_union_L | rewrite dom_insert_L | rewrite dom_empty_L ];
    set_solver.
Qed.

(** X3: [focusParent] is bound, to ArrowLeft, exactly when the item has a
    subtree, open or closed. *)
Theorem focusParent_binding props :
  exists d,
    treeItemBehavior props = Normal d /\
    keyAction d "root" "focusParent" =
      if toBoolean (hasSubtree props)
      then Some (onKeys [keyboardKey "ArrowLeft"])
      else None.
Proof.
  destruct (treeItemBehavior_returns props) as (d & Hd & _).
  exists d. split; [exact Hd|].
  rewrite (keyAction_returned props d) by exact Hd.
  destruct props as [e l i h t s sd].
  destruct h as [[]|], e as [[]|], s as [[]|]; root_lookup.
Qed.

(** X4: the keys of [performClick] for every props: Enter and Spacebar
    unless the item is selectable; for a selectable item Enter alone when it
    has a subtree, and Spacebar alone when it has none. *)
Theorem performClick_binding props :
  exists d,
    treeItemBehavior props = Normal d /\
    keyAction d "root" "performClick" =
      Some (onKeys (if toBoolean (selectable props)
                    then if toBoolean (hasSubtree props)
                         then [keyboardKey "Enter"]
                         else [SpacebarKey]
                    else [keyboardKey "Enter"; SpacebarKey])).
Proof.
  destruct (treeItemBehavior_returns props) as (d & Hd & _).
  exists d. split; [exact Hd|].
  rewrite (keyAction_returned props d) by exact Hd.
  destruct props as [e l i h t s sd].
  destruct h as [[]|], e as [[]|], s as [[]|]; root_lookup.
Qed.

(** X5: [performSelection] is bound, to Spacebar, exactly when the item is
    selectable, whether or not it has a subtree. *)
Theorem performSelection_binding props :
  exists d,
    treeItemBehavior props = Normal d /\
    keyAction d "root" "performSelection" =
      if toBoolean (selectable props)
      then Some (onKeys [SpacebarKey])
      else None.
Proof.
  destruct (treeItemBehavior_returns props) as (d & Hd & _).
  exists d. split; [exact Hd|].
  rewrite (keyAction_returned props d) by exact Hd.
  destruct props as [e l i h t s sd].
  destruct h as [[]|], e as [[]|], s as [[]|]; root_lookup.
Qed.

(** X6: every item has [expandSiblings] on ['*'], whatever its props. *)
Theorem expandSiblings_always props :
  exists d,
    treeItemBehavior props = Normal d /\
    keyAction d "root" "expandSiblings" = Some (onKeys [keyboardKey "*"]).
Proof.
  destruct (treeItemBehavior_returns props) as (d & Hd & _).
  exists d. split; [exact Hd|].
  rewrite (keyAction_returned props d) by exact Hd.
  destruct props as [e l i h t s sd].
  destruct h as [[]|], e as [[]|], s as [[]|]; root_lookup.
Qed.

(** X7: whenever [collapse] is bound, [focusParent] is bound to the same
    keys: the key that collapses an open subtree also asks for the parent
    to be focused. *)
Theorem collapse_shares_keys_with_focusParent props :
  exists d,
    treeItemBehavior props = Normal d /\
    forall h, keyAction d "root" "collapse" = Some h ->
              keyAction d "root" "focusParent" = Some h.
Proof.
  destruct (treeItemBehavior_returns props) as (d & Hd & _).
  exists d. split; [exact Hd|].
  rewrite !(keyAction_returned props d) by exact Hd.
  destruct props as [e l i h t s sd].
  destruct h as [[]|], e as [[]|], s as [[]|]; root_lookup;
    intros h' Hh'; solve [discriminate | exact Hh'].
Qed.

(** X8: every root key action has at least one key combination and at most
    two. *)
Theorem root_actions_have_keys props :
  exists d,
    treeItemBehavior props = Normal d /\
    forall action h, keyAction d "root" action = Some h ->
                     1 <= length (keyCombinations h) <= 2.
Proof.
  destruct (treeItemBehavior_returns props) as (d & Hd & _).
  exists d. split; [exact Hd|]. intros action h'.
  rewrite (keyAction_returned props d) by exact Hd.
  destruct props as [e l i h t s sd].
  destruct h as [[]|], e as [[]|], s as [[]|];
    literal; rewrite lookup_insert_eq; cbn [mbind option_bind];
    repeat first
      [ rewrite lookup_union | rewrite lookup_empty
      | rewrite lookup_insert; case_decide ];
    cbn [union_with option_union_with];
    intros Hh; try discriminate; injection Hh as <-;
    cbn [keyCombinations length]; lia.
Qed.

(** X9: the descriptor has attributes and key actions for the root slot
    only, and one child behaviour, the title's. *)
Theorem descriptor_slots props :
  exists d,
    treeItemBehavior props = Normal d /\
    dom (attributes d) = {[ "root" ]} /\
    dom (keyActions d) = {[ "root" ]} /\
    dom (childBehaviors d) = {[ "title" ]}.
Proof.
  assert (Hdef : dom (attributes (definition props)) = {[ "root" ]} /\
                 dom (keyActions (definition props)) = {[ "root" ]} /\
                 dom (childBehaviors (definition props)) = {[ "title" ]}).
  { literal. rewrite !dom_insert_L, !dom_empty_L. set_solver. }
  destruct Hdef as (Ha & Hk & Hc).
  unfold treeItemBehavior.
  destruct (strict_ne NODE_ENV "production" && negb (toBoolean (hasSubtree props))).
  - destruct (definition_root_attributes props) as [root Hroot].
    unfold set_root_attribute. rewrite Hroot. eexists. split; [reflexivity|].
    cbn [attributes keyActions childBehaviors].
    rewrite dom_insert_L, Ha, Hk, Hc. set_solver.
  - eexists. split; [reflexivity|]. auto.
Qed.

(** X10: the role of the root is ["treeitem"] when [hasSubtree] is [true] and
    ["none"] when it is [false] or absent, whatever the name of the
    focusable marker and the build mode. *)
Theorem root_role props :
  exists d,
    treeItemBehavior props = Normal d /\
    attribute d "root" "role" =
      Some (VString (if toBoolean (hasSubtree props) then "treeitem" else "none")).
Proof.
  destruct (toBoolean (hasSubtree props)) eqn:Hsub.
  - exists (definition props).
    split; [apply treeItemBehavior_subtree; exact Hsub|].
    literal. rewrite Hsub. cbn [fold_left define].
    rewrite lookup_insert_eq; cbn [mbind option_bind]. lookups. reflexivity.
  - destruct (treeItemBehavior_leaf props Hsub) as (d & Hd & Ha & _).
    exists d. split; [exact Hd|]. unfold attribute. rewrite Ha.
    cbn [mbind option_bind]. destruct (strict_ne NODE_ENV "production"); reflexivity.
Qed.

(** X11: for an item with a subtree, [aria-setsize], [aria-posinset] and
    [aria-level] carry [treeSize], [index] and [level], [undefined] for an
    absent one, whatever the name of the focusable marker: they are written
    after it. *)
Theorem position_attributes props :
  toBoolean (hasSubtree props) = true ->
  exists d,
    treeItemBehavior props = Normal d /\
    attribute d "root" "aria-setsize" = Some (ofNumber (treeSize props)) /\
    attribute d "root" "aria-posinset" = Some (ofNumber (index props)) /\
    attribute d "root" "aria-level" = Some (ofNumber (level props)).
Proof.
  intros Hsub. exists (definition props).
  split; [apply treeItemBehavior_subtree; exact Hsub|].
  repeat split; literal; rewrite Hsub; cbn [fold_left define];
    rewrite lookup_insert_eq; cbn [mbind option_bind]; lookups; reflexivity.
Qed.

(** X12: an item without a subtree, [hasSubtree] being [false] or absent,
    has no root attribute besides [role] and the diagnostic [data-aa-class]:
    no [tabIndex], no [aria-] attribute, no focusable marker, selectable or
    not. *)
Theorem leaf_has_no_other_attribute props name :
  toBoolean (hasSubtree props) = false ->
  name <> "role" ->
  name <> "data-aa-class" ->
  exists d,
    treeItemBehavior props = Normal d /\
    attribute d "root" name = None.
Proof.
  intros Hsub Hrole Hclass.
  destruct (treeItemBehavior_leaf props Hsub) as (d & Hd & Ha & _).
  exists d. split; [exact Hd|]. unfold attribute. rewrite Ha.
  cbn [mbind option_bind].
  destruct (strict_ne NODE_ENV "production");
    repeat first [ rewrite lookup_insert_ne by congruence
                 | rewrite lookup_singleton_ne by congruence
                 | rewrite lookup_empty ];
    reflexivity.
Qed.

(** X13: the root attributes of an item with a subtree are the seven written
    out by name and the focusable marker, and no other; the diagnostic
    attribute is not among them. *)
Theorem subtree_attribute_names props :
  toBoolean (hasSubtree props) = true ->
  exists d root,
    treeItemBehavior props = Normal d /\
    attributes d !! "root" = Some root /\
    dom root = {[ IS_FOCUSABLE_ATTRIBUTE ]} ∪ list_to_set subtreeAttributeNames.
Proof.
  intros Hsub. exists (definition props).
  eexists. split; [apply treeItemBehavior_subtree; exact Hsub|].
  literal. rewrite Hsub. cbn [fold_left define].
  rewrite lookup_insert_eq. split; [reflexivity|].
  repeat first [ rewrite dom_union_L | rewrite dom_insert_L | rewrite dom_empty_L ].
  unfold subtreeAttributeNames. cbn [list_to_set foldr].
  apply set_eq. intros x. set_unfold. tauto.
Qed.

(** Every lookup of the goal is evaluated, the nested ones too. *)
Ltac all_lookups :=
  literal;
  repeat (progress (lookups;
                    cbn [union option_union union_with option_union_with])).

(** X14: the key actions bound on the root agree with the state it
    announces: [collapse] is bound exactly when [aria-expanded] is [true],
    and [expand] exactly when the root is a tree item whose [aria-expanded]
    is not [true]. *)
Theorem actions_follow_announced_state props :
  IS_FOCUSABLE_ATTRIBUTE <> "aria-expanded" ->
  exists d,
    treeItemBehavior props = Normal d /\
    (is_Some (keyAction d "root" "collapse") <->
     attribute d "root" "aria-expanded" = Some (VBoolean true)) /\
    (is_Some (keyAction d "root" "expand") <->
     attribute d "root" "role" = Some (VString "treeitem") /\
     attribute d "root" "aria-expanded" <> Some (VBoolean true)).
Proof.
  intros Hmarker.
  destruct (toBoolean (hasSubtree props)) eqn:Hsub.
  - exists (definition props).
    split; [apply treeItemBehavior_subtree; exact Hsub|].
    destruct props as [e l i h t s sd]. cbn [hasSubtree] in Hsub.
    destruct h as [[]|]; try discriminate.
    destruct e as [[]|], s as [[]|]; all_lookups; cbn [ofBoolean];
      (split; [split; [intros [? ?] | intros ?]
              | split; [intros [? ?] | intros [? ?]]]);
      first [ discriminate | congruence | eauto ].
  - destruct (treeItemBehavior_leaf props Hsub) as (d & Hd & Ha & _).
    exists d. split; [exact Hd|].
    rewrite !(keyAction_returned props d) by exact Hd.
    unfold attribute. rewrite Ha. cbn [mbind option_bind].
    destruct props as [e l i h t s sd]. cbn [hasSubtree] in Hsub.
    destruct (strict_ne NODE_ENV "production");
      destruct h as [[]|]; try discriminate;
      destruct e as [[]|], s as [[]|]; all_lookups;
      (split; [split; [intros [? ?] | intros ?]
              | split; [intros [? ?] | intros [? ?]]]);
      first [ discriminate | congruence | eauto ].
Qed.

(** X15: an item without a subtree is described by its [selectable] flag
    alone: [expanded], [selected], [level], [index] and [treeSize] are not
    looked at. *)
Theorem leaf_depends_on_selectable_only p q :
  toBoolean (hasSubtree p) = false ->
  toBoolean (hasSubtree q) = false ->
  toBoolean (selectable p) = toBoolean (selectable q) ->
  treeItemBehavior p = treeItemBehavior q.
Proof.
  destruct p as [e l i h t s sd], q as [e' l' i' h' t' s' sd'].
  cbn [hasSubtree selectable]. intros Hp Hq Hsel.
  unfold treeItemBehavior, definition, isSubtreeExpanded, js_and, and_object.
  cbn [hasSubtree expanded selectable selected level index treeSize].
  rewrite Hp, Hq, Hsel.
  destruct h as [[]|]; try discriminate;
    destruct h' as [[]|]; try discriminate; reflexivity.
Qed.

(** X16: the key actions depend on the props only through three facts:
    whether there is a subtree, whether it is open, and whether the item is
    selectable.  [selected], [level], [index] and [treeSize] never change a
    binding. *)
Theorem keyActions_depend_on_flags p q :
  toBoolean (hasSubtree p) = toBoolean (hasSubtree q) ->
  isSubtreeExpanded p = isSubtreeExpanded q ->
  toBoolean (selectable p) = toBoolean (selectable q) ->
  exists dp dq,
    treeItemBehavior p = Normal dp /\
    treeItemBehavior q = Normal dq /\
    keyActions dp = keyActions dq.
Proof.
  intros Hsub Hopen Hsel.
  destruct (treeItemBehavior_returns p) as (dp & Hdp & Hkp & _).
  destruct (treeItemBehavior_returns q) as (dq & Hdq & Hkq & _).
  exists dp, dq. split; [exact Hdp|]. split; [exact Hdq|].
  rewrite Hkp, Hkq. unfold definition. cbn [keyActions].
  rewrite Hopen.
  unfold js_and, and_object. cbn [toBoolean].
  destruct (isSubtreeExpanded q); cbn [negb toBoolean]; rewrite Hsub, Hsel;
    reflexivity.
Qed.

End TreeItemBehavior.

Arguments attributes {_ _} _.
Arguments keyActions {_ _} _.
Arguments childBehaviors {_ _} _.
Arguments definition keyboardKey SpacebarKey IS_FOCUSABLE_ATTRIBUTE {_ _}
  treeTitleBehavior props.
Arguments treeItemBehavior keyboardKey SpacebarKey IS_FOCUSABLE_ATTRIBUTE {_ _}
  treeTitleBehavior NODE_ENV props.
Arguments attribute {_ _} d slot name.
Arguments keyAction {_ _} d slot action.

Abbreviation sampleBehavior :=
  (treeItemBehavior Sample.keyboardKey Sample.SpacebarKey
     Sample.IS_FOCUSABLE_ATTRIBUTE Sample.treeTitleBehavior).

Lemma Enter_is_not_Spacebar : Sample.keyboardKey "Enter" <> Sample.SpacebarKey.
Proof.
  intros H. apply (f_equal (fun x => PrimFloat.eqb x 13%float)) in H.
  vm_compute in H. discriminate.
Qed.

Lemma focusable_marker_fresh :
  Sample.IS_FOCUSABLE_ATTRIBUTE ∉ subtreeAttributeNames.
Proof.
  unfold subtreeAttributeNames. rewrite !not_elem_of_cons.
  repeat split; try discriminate. apply not_elem_of_nil.
Qed.

(** On the selectable leaf the literal is returned as it is in production. *)
Lemma selectableLeaf_returns :
  sampleBehavior (Some "production") Sample.selectableLeaf =
  Normal (definition Sample.keyboardKey Sample.SpacebarKey
            Sample.IS_FOCUSABLE_ATTRIBUTE Sample.treeTitleBehavior
            Sample.selectableLeaf).
Proof. reflexivity. Qed.

(** C1 as stated fails on a leaf that is selectable: its [performClick] is
    bound to Spacebar (32) alone, not to Enter (13) and Spacebar, and Enter
    is not among its keys at all. *)
Lemma leaf_performClick_counterexample :
  hasSubtree Sample.selectableLeaf = Some false /\
  (exists d,
     sampleBehavior (Some "production") Sample.selectableLeaf = Normal d /\
     keyAction d "root" "performClick" = Some (onKeys [32%float])) /\
  ~ (exists d,
       sampleBehavior (Some "production") Sample.selectableLeaf = Normal d /\
       keyAction d "root" "performClick" =
         Some (onKeys [Sample.keyboardKey "Enter"; Sample.SpacebarKey])) /\
  ~ (exists d h,
       sampleBehavior (Some "production") Sample.selectableLeaf = Normal d /\
       keyAction d "root" "performClick" = Some h /\
       triggeredBy h (Sample.keyboardKey "Enter")).
Proof.
  split; [reflexivity|]. split; [|split].
  - eexists. split; [apply selectableLeaf_returns | reflexivity].
  - intros (d & Hd & Hclick).
    rewrite selectableLeaf_returns in Hd. injection Hd as <-.
    vm_compute in Hclick. discriminate.
  - intros (d & h & Hd & Hclick & Hin).
    rewrite selectableLeaf_returns in Hd. injection Hd as <-.
    vm_compute in Hclick. injection Hclick as <-.
    apply (not_triggeredBy_other Sample.SpacebarKey (Sample.keyboardKey "Enter"));
      [|exact Hin].
    intros Heq. apply Enter_is_not_Spacebar. symmetry. exact Heq.
Qed.

Lemma leaf_descriptor_witness :
  hasSubtree Sample.plainLeaf = Some false /\
  exists d,
    sampleBehavior None Sample.plainLeaf = Normal d /\
    attributes d !! "root" =
      Some {[ "role" := VString "none";
              "data-aa-class" := VString "SingleTreeItem" ]} /\
    keyAction d "root" "performClick" = Some (onKeys [13%float; 32%float]) /\
    keyAction d "root" "expandSiblings" = Some (onKeys [56%float]) /\
    keyAction d "root" "expand" = None /\
    keyAction d "root" "collapse" = None /\
    keyAction d "root" "focusParent" = None /\
    keyAction d "root" "focusFirstChild" = None.
Proof.
  split; [reflexivity|].
  apply (leaf_descriptor Sample.keyboardKey Sample.SpacebarKey
           Sample.IS_FOCUSABLE_ATTRIBUTE _ _ Sample.treeTitleBehavior None
           Sample.plainLeaf); reflexivity.
Defined.

Lemma selectable_leaf_keys_witness :
  selectable Sample.selectableLeaf = Some true /\
  hasSubtree Sample.selectableLeaf = Some false /\
  exists d,
    sampleBehavior (Some "production") Sample.selectableLeaf = Normal d /\
    keyAction d "root" "performClick" = Some (onKeys [32%float]) /\
    (forall h, keyAction d "root" "performClick" = Some h ->
               ~ triggeredBy h 13%float) /\
    keyAction d "root" "performSelection" = Some (onKeys [32%float]).
Proof.
  split; [reflexivity|]. split; [reflexivity|].
  apply (selectable_leaf_keys Sample.keyboardKey Sample.SpacebarKey
           Sample.IS_FOCUSABLE_ATTRIBUTE _ _ Sample.treeTitleBehavior
           (Some "production") Sample.selectableLeaf);
    [reflexivity | reflexivity | exact Enter_is_not_Spacebar].
Defined.

Lemma selectable_subtree_witness :
  selectable (Sample.subtree true true) = Some true /\
  hasSubtree (Sample.subtree true true) = Some true /\
  exists d,
    sampleBehavior None (Sample.subtree true true) = Normal d /\
    keyAction d "root" "performClick" = Some (onKeys [13%float]) /\
    (forall h, keyAction d "root" "performClick" = Some h ->
               ~ triggeredBy h 32%float) /\
    keyAction d "root" "performSelection" = Some (onKeys [32%float]) /\
    attribute d "root" "aria-selected" = Some (VBoolean false).
Proof.
  split; [reflexivity|]. split; [reflexivity|].
  apply (selectable_subtree Sample.keyboardKey Sample.SpacebarKey
           Sample.IS_FOCUSABLE_ATTRIBUTE _ _ Sample.treeTitleBehavior None
           (Sample.subtree true true));
    [reflexivity | reflexivity | exact Enter_is_not_Spacebar | discriminate].
Defined.

Lemma subtree_attributes_witness :
  hasSubtree (Sample.subtree false false) = Some true /\
  exists d,
    sampleBehavior None (Sample.subtree false false) = Normal d /\
    attribute d "root" "aria-expanded" = Some (VBoolean false) /\
    attribute d "root" "aria-selected" = Some VUndefined /\
    attribute d "root" "data-is-focusable" = Some (VBoolean true) /\
    attribute d "root" "role" = Some (VString "treeitem") /\
    attribute d "root" "aria-setsize" = Some (VNumber 3%float) /\
    attribute d "root" "aria-posinset" = Some (VNumber 2%float) /\
    attribute d "root" "aria-level" = Some (VNumber 1%float) /\
    attribute d "root" "tabIndex" = Some (VNumber (-1)%float).
Proof.
  split; [reflexivity|].
  apply (subtree_attributes Sample.keyboardKey Sample.SpacebarKey
           Sample.IS_FOCUSABLE_ATTRIBUTE _ _ Sample.treeTitleBehavior None
           (Sample.subtree false false));
    [reflexivity | exact focusable_marker_fresh].
Defined.

Lemma expanded_subtree_witness :
  hasSubtree (Sample.subtree true false) = Some true /\
  expanded (Sample.subtree true false) = Some true /\
  exists d,
    sampleBehavior (Some "production") (Sample.subtree true false) = Normal d /\
    attribute d "root" "role" = Some (VString "treeitem") /\
    attribute d "root" "aria-expanded" = Some (VBoolean true) /\
    keyAction d "root" "collapse" = Some (onKeys [37%float]) /\
    keyAction d "root" "focusFirstChild" = Some (onKeys [39%float]) /\
    keyAction d "root" "focusParent" = Some (onKeys [37%float]) /\
    keyAction d "root" "expand" = None.
Proof.
  split; [reflexivity|]. split; [reflexivity|].
  apply (expanded_subtree Sample.keyboardKey Sample.SpacebarKey
           Sample.IS_FOCUSABLE_ATTRIBUTE _ _ Sample.treeTitleBehavior
           (Some "production") (Sample.subtree true false));
    [reflexivity | reflexivity | discriminate].
Defined.

Lemma collapsed_subtree_witness :
  hasSubtree (Sample.subtree false false) = Some true /\
  expanded (Sample.subtree false false) = Some false /\
  exists d,
    sampleBehavior (Some "production") (Sample.subtree false false) = Normal d /\
    keyAction d "root" "expand" = Some (onKeys [39%float]) /\
    keyAction d "root" "focusParent" = Some (onKeys [37%float]) /\
    keyAction d "root" "collapse" = None /\
    keyAction d "root" "focusFirstChild" = None.
Proof.
  split; [reflexivity|]. split; [reflexivity|].
  apply (collapsed_subtree Sample.keyboardKey Sample.SpacebarKey
           Sample.IS_FOCUSABLE_ATTRIBUTE _ _ Sample.treeTitleBehavior
           (Some "production") (Sample.subtree false false));
    [reflexivity | reflexivity].
Defined.

(** C8: the function is deterministic for a fixed build mode: two calls
    whose [NODE_ENV] agree on being ["production"] or not, with deep-equal
    props, return equal results.  Of the environment only that one
    comparison is read, and of the props nothing but their properties. *)
Theorem treeItemBehavior_deterministic
    (keyboardKey : string -> number) (SpacebarKey : number)
    (IS_FOCUSABLE_ATTRIBUTE : string) (TitleProps TitleDefinition : Type)
    (treeTitleBehavior : TitleProps -> TitleDefinition)
    (env1 env2 : option string) (p q : TreeItemBehaviorProps) :
  strict_ne env1 "production" = strict_ne env2 "production" ->
  deepEqual p q ->
  treeItemBehavior keyboardKey SpacebarKey IS_FOCUSABLE_ATTRIBUTE
    treeTitleBehavior env1 p =
  treeItemBehavior keyboardKey SpacebarKey IS_FOCUSABLE_ATTRIBUTE
    treeTitleBehavior env2 q.
Proof.
  intros Hmode Hprops.
  destruct p as [e l i h t s sd], q as [e' l' i' h' t' s' sd'].
  unfold deepEqual in Hprops.
  cbn [expanded level index hasSubtree treeSize selectable selected] in Hprops.
  destruct Hprops as (-> & -> & -> & -> & -> & -> & ->).
  unfold treeItemBehavior. rewrite Hmode. reflexivity.
Qed.

Lemma treeItemBehavior_deterministic_witness :
  strict_ne None "production" = strict_ne (Some "development") "production" /\
  deepEqual Sample.plainLeaf
    {| expanded := None; level := Some 2%float; index := Some 1%float;
       hasSubtree := Some false; treeSize := Some 3%float;
       selectable := None; selected := None |} /\
  sampleBehavior None Sample.plainLeaf =
  sampleBehavior (Some "development")
    {| expanded := None; level := Some 2%float; index := Some 1%float;
       hasSubtree := Some false; treeSize := Some 3%float;
       selectable := None; selected := None |}.
Proof.
  assert (H : deepEqual Sample.plainLeaf
    {| expanded := None; level := Some 2%float; index := Some 1%float;
       hasSubtree := Some false; treeSize := Some 3%float;
       selectable := None; selected := None |})
    by (repeat split; reflexivity).
  split; [reflexivity|]. split; [exact H|].
  apply (treeItemBehavior_deterministic Sample.keyboardKey Sample.SpacebarKey
           Sample.IS_FOCUSABLE_ATTRIBUTE _ _ Sample.treeTitleBehavior
           None (Some "development") _ _ eq_refl H).
Defined.

(** The condition on the marker's name in C3, C4 and C5 is needed: a marker
    named [tabIndex] would overwrite the tab order of the root. *)
Example marker_named_tabIndex :
  exists d,
    treeItemBehavior Sample.keyboardKey Sample.SpacebarKey "tabIndex"
      Sample.treeTitleBehavior None (Sample.subtree true false) = Normal d /\
    attribute d "root" "tabIndex" = Some (VBoolean true).
Proof. eexists. split; reflexivity. Qed.

(** ** The build mode *)

(** X17: the build mode reaches the diagnostic attribute only: under two
    values of [NODE_ENV] the call returns descriptors with the same key
    actions, the same child behaviours, and the same value for every root
    attribute other than [data-aa-class]. *)
Theorem build_mode_reaches_diagnostic_only
    (keyboardKey : string -> number) (SpacebarKey : number)
    (IS_FOCUSABLE_ATTRIBUTE : string) (TitleProps TitleDefinition : Type)
    (treeTitleBehavior : TitleProps -> TitleDefinition)
    (env1 env2 : option string) (props : TreeItemBehaviorProps) :
  exists d1 d2,
    treeItemBehavior keyboardKey SpacebarKey IS_FOCUSABLE_ATTRIBUTE
      treeTitleBehavior env1 props = Normal d1 /\
    treeItemBehavior keyboardKey SpacebarKey IS_FOCUSABLE_ATTRIBUTE
      treeTitleBehavior env2 props = Normal d2 /\
    keyActions d1 = keyActions d2 /\
    childBehaviors d1 = childBehaviors d2 /\
    forall name, name <> "data-aa-class" ->
                 attribute d1 "root" name = attribute d2 "root" name.
Proof.
  destruct (treeItemBehavior_returns keyboardKey SpacebarKey
              IS_FOCUSABLE_ATTRIBUTE _ _ treeTitleBehavior env1 props)
    as (d1 & Hd1 & Hk1 & Hc1).
  destruct (treeItemBehavior_returns keyboardKey SpacebarKey
              IS_FOCUSABLE_ATTRIBUTE _ _ treeTitleBehavior env2 props)
    as (d2 & Hd2 & Hk2 & Hc2).
  exists d1, d2. split; [exact Hd1|]. split; [exact Hd2|].
  split; [congruence|]. split; [congruence|].
  intros name Hname.
  rewrite (attribute_returned _ _ _ _ _ _ _ _ _ _ Hd1 Hname).
  rewrite (attribute_returned _ _ _ _ _ _ _ _ _ _ Hd2 Hname).
  reflexivity.
Qed.

(** X18: an item with a subtree gets the same descriptor in every build
    mode: the diagnostic attribute is for items without a subtree. *)
Theorem subtree_ignores_build_mode
    (keyboardKey : string -> number) (SpacebarKey : number)
    (IS_FOCUSABLE_ATTRIBUTE : string) (TitleProps TitleDefinition : Type)
    (treeTitleBehavior : TitleProps -> TitleDefinition)
    (env1 env2 : option string) (props : TreeItemBehaviorProps) :
  toBoolean (hasSubtree props) = true ->
  treeItemBehavior keyboardKey SpacebarKey IS_FOCUSABLE_ATTRIBUTE
    treeTitleBehavior env1 props =
  treeItemBehavior keyboardKey SpacebarKey IS_FOCUSABLE_ATTRIBUTE
    treeTitleBehavior env2 props.
Proof.
  intros Hsub.
  rewrite !treeItemBehavior_subtree by exact Hsub. reflexivity.
Qed.

Lemma subtree_ignores_build_mode_witness :
  toBoolean (hasSubtree (Sample.subtree true true)) = true /\
  sampleBehavior None (Sample.subtree true true) =
  sampleBehavior (Some "production") (Sample.subtree true true).
Proof.
  split; [reflexivity|].
  apply (subtree_ignores_build_mode Sample.keyboardKey Sample.SpacebarKey
           Sample.IS_FOCUSABLE_ATTRIBUTE _ _ Sample.treeTitleBehavior
           None (Some "production") (Sample.subtree true true)).
  reflexivity.
Defined.

Lemma position_attributes_witness :
  toBoolean (hasSubtree (Sample.subtree true false)) = true /\
  exists d,
    treeItemBehavior Sample.keyboardKey Sample.SpacebarKey "role"
      Sample.treeTitleBehavior None (Sample.subtree true false) = Normal d /\
    attribute d "root" "aria-setsize" = Some (VNumber 3%float) /\
    attribute d "root" "aria-posinset" = Some (VNumber 2%float) /\
    attribute d "root" "aria-level" = Some (VNumber 1%float).
Proof.
  split; [reflexivity|].
  apply (position_attributes Sample.keyboardKey Sample.SpacebarKey "role"
           _ _ Sample.treeTitleBehavior None (Sample.subtree true false)).
  reflexivity.
Defined.

Lemma leaf_has_no_other_attribute_witness :
  toBoolean (hasSubtree Sample.selectableLeaf) = false /\
  exists d,
    sampleBehavior None Sample.selectableLeaf = Normal d /\
    attribute d "root" "tabIndex" = None.
Proof.
  split; [reflexivity|].
  apply (leaf_has_no_other_attribute Sample.keyboardKey Sample.SpacebarKey
           Sample.IS_FOCUSABLE_ATTRIBUTE _ _ Sample.treeTitleBehavior None
           Sample.selectableLeaf "tabIndex");
    [reflexivity | discriminate | discriminate].
Defined.

Lemma subtree_attribute_names_witness :
  toBoolean (hasSubtree (Sample.subtree false true)) = true /\
  exists d root,
    sampleBehavior None (Sample.subtree false true) = Normal d /\
    attributes d !! "root" = Some root /\
    dom root =
      {[ "data-is-focusable" ]} ∪ list_to_set subtreeAttributeNames.
Proof.
  split; [reflexivity|].
  apply (subtree_attribute_names Sample.keyboardKey Sample.SpacebarKey
           Sample.IS_FOCUSABLE_ATTRIBUTE _ _ Sample.treeTitleBehavior None
           (Sample.subtree false true)).
  reflexivity.
Defined.

Lemma actions_follow_announced_state_witness :
  Sample.IS_FOCUSABLE_ATTRIBUTE <> "aria-expanded" /\
  exists d,
    sampleBehavior None (Sample.subtree true false) = Normal d /\
    (is_Some (keyAction d "root" "collapse") <->
     attribute d "root" "aria-expanded" = Some (VBoolean true)) /\
    (is_Some (keyAction d "root" "expand") <->
     attribute d "root" "role" = Some (VString "treeitem") /\
     attribute d "root" "aria-expanded" <> Some (VBoolean true)).
Proof.
  split; [discriminate|].
  apply (actions_follow_announced_state Sample.keyboardKey Sample.SpacebarKey
           Sample.IS_FOCUSABLE_ATTRIBUTE _ _ Sample.treeTitleBehavior None
           (Sample.subtree true false)).
  discriminate.
Defined.

Lemma leaf_depends_on_selectable_only_witness :
  toBoolean (hasSubtree Sample.plainLeaf) = false /\
  toBoolean (hasSubtree noProps) = false /\
  toBoolean (selectable Sample.plainLeaf) = toBoolean (selectable noProps) /\
  sampleBehavior None Sample.plainLeaf = sampleBehavior None noProps.
Proof.
  split; [reflexivity|]. split; [reflexivity|]. split; [reflexivity|].
  apply (leaf_depends_on_selectable_only Sample.keyboardKey Sample.SpacebarKey
           Sample.IS_FOCUSABLE_ATTRIBUTE _ _ Sample.treeTitleBehavior None
           Sample.plainLeaf noProps); reflexivity.
Defined.

Lemma keyActions_depend_on_flags_witness :
  toBoolean (hasSubtree (Sample.subtree true true)) =
    toBoolean (hasSubtree (withDefaults (Sample.subtree true true))) /\
  isSubtreeExpanded (Sample.subtree true true) =
    isSubtreeExpanded (withDefaults (Sample.subtree true true)) /\
  toBoolean (selectable (Sample.subtree true true)) =
    toBoolean (selectable (withDefaults (Sample.subtree true true))) /\
  exists dp dq,
    sampleBehavior None (Sample.subtree true true) = Normal dp /\
    sampleBehavior None (withDefaults (Sample.subtree true true)) = Normal dq /\
    keyActions dp = keyActions dq.
Proof.
  split; [reflexivity|]. split; [reflexivity|]. split; [reflexivity|].
  apply (keyActions_depend_on_flags Sample.keyboardKey Sample.SpacebarKey
           Sample.IS_FOCUSABLE_ATTRIBUTE _ _ Sample.treeTitleBehavior None
           (Sample.subtree true true) (withDefaults (Sample.subtree true true)));
    reflexivity.
Defined.
